(** * Verification of the crosvm example recipe [container_build_context.py]

    The recipe is

<<
    def RunSteps(api):
        with api.crosvm.container_build_context():
            api.crosvm.step_in_container("Build", ["cargo", "build"])

    def GenTests(api):
        yield api.test("basic")
>>

    It is embedded over a small state-and-exception monad: the state is
    the log of collaborator calls made so far, a Python exception is the
    [inr] branch of the result.  The collaborators' answers are an explicit
    argument of type [Responses], so that every run is a total function of
    them. *)

From Stdlib Require Import String List Bool ZArith.
Import ListNotations.
Open Scope string_scope.
Open Scope list_scope.

(** ** Data model *)

(** The errors a collaborator may raise. *)
Inductive error : Type :=
| ContextAcquisitionError
| StepExecutionError (exit_code : Z)
| ContextError.

(** The value returned by a command run in the container. *)
Record ExecutionResult : Type := {
  exit_code : Z;
  stdout : string;
  stderr : string
}.

(** A collaborator call, as observed by the harness. *)
Inductive call : Type :=
| CallAcquire
| CallExecute (label : string) (command : list string)
| CallRelease.

(** What the collaborators answer: whether provisioning the container
    raises, and what running a labelled command returns or raises. *)
Record Responses : Type := {
  acquire_response : option error;
  execute_response : string -> list string -> ExecutionResult + error
}.

(** The harness state: every collaborator call made, oldest first. *)
Definition World : Type := list call.

(** ** The monad: state passing with Python exceptions *)

Definition M (A : Type) : Type := World -> (A + error) * World.

Definition ret {A} (a : A) : M A := fun w => (inl a, w).

Definition raise {A} (e : error) : M A := fun w => (inr e, w).

Definition bind {A B} (m : M A) (f : A -> M B) : M B :=
  fun w =>
    match m w with
    | (inl a, w') => f a w'
    | (inr e, w') => (inr e, w')
    end.

Notation "x <- m ;; k" := (bind m (fun x => k))
  (at level 61, m at next level, right associativity).
Notation "m ;;; k" := (bind m (fun _ => k))
  (at level 61, right associativity).

(** Record a collaborator call in the harness log. *)
Definition record (c : call) : M unit := fun w => (inl tt, app w [c]).

(** ** Python's [with] statement

    [with mgr: body] calls [mgr.__enter__()]; if that raises, the body and
    [__exit__] are skipped.  Otherwise the body runs; [__exit__] is called
    with the body's exception, if any, and its truth value decides whether
    that exception is suppressed.  An exception raised by [__exit__]
    replaces the body's outcome. *)

Record ContextManager : Type := {
  cm_enter : M unit;
  cm_exit : option error -> M bool
}.

Definition with_stmt (mgr : ContextManager) (body : M unit) : M unit :=
  cm_enter mgr ;;;
  fun w =>
    match body w with
    | (inl tt, w1) =>
        match cm_exit mgr None w1 with
        | (inl _, w2) => (inl tt, w2)
        | (inr e', w2) => (inr e', w2)
        end
    | (inr e, w1) =>
        match cm_exit mgr (Some e) w1 with
        | (inl true, w2) => (inl tt, w2)
        | (inl false, w2) => (inr e, w2)
        | (inr e', w2) => (inr e', w2)
        end
    end.

(** ** The crosvm recipe module's collaborators *)

Section Crosvm.

Variable rs : Responses.

(** Modelled from the spec: [api.crosvm.container_build_context] (the
    crosvm recipe module, not part of this source).  Entering acquires the
    build context, raising [ContextAcquisitionError] if no container can be
    provisioned; leaving releases it on every exit path and suppresses
    nothing ("both errors surface directly to the harness; nothing is
    retried or swallowed locally"). *)
Definition container_build_context : ContextManager := {|
  cm_enter :=
    record CallAcquire ;;;
    match acquire_response rs with
    | None => ret tt
    | Some e => raise e
    end;
  cm_exit := fun _ => record CallRelease ;;; ret false
|}.

(** Modelled from the spec: [api.crosvm.step_in_container] (the crosvm
    recipe module, not part of this source).  Executes [command] in the
    container under [label]; returns the [ExecutionResult] or raises. *)
Definition step_in_container (label : string) (command : list string)
  : M ExecutionResult :=
  record (CallExecute label command) ;;;
  match execute_response rs label command with
  | inl r => ret r
  | inr e => raise e
  end.

(** [RunSteps]: the expression statement discards the step's value. *)
Definition RunSteps : M unit :=
  with_stmt container_build_context
    (_ <- step_in_container "Build" ["cargo"; "build"] ;; ret tt).

End Crosvm.

(** The calls made by one invocation, started on the empty log. *)
Definition run_calls (rs : Responses) : list call := snd (RunSteps rs []).

(** The outcome of one invocation. *)
Definition run_outcome (rs : Responses) : unit + error := fst (RunSteps rs []).

(** ** The test registration *)

(** A test case of the recipe test API: its name and the data it
    supplies (step outputs, properties, overrides). *)
Record TestCase : Type := {
  test_name : string;
  test_data : list string
}.

(** [api.test(name)] with no further arguments. *)
Definition api_test (name : string) : TestCase :=
  {| test_name := name; test_data := [] |}.

(** [GenTests]: the generator as the list of the values it yields. *)
Definition GenTests : list TestCase := [api_test "basic"].

(** ** Spec-side vocabulary *)

(** The command of the recipe's only step. *)
Definition build_command : list string := ["cargo"; "build"].

(** The two terminal states of a run. *)
Inductive terminal : Type := Completed | Failed.

Definition terminal_of (o : unit + error) : terminal :=
  match o with
  | inl _ => Completed
  | inr _ => Failed
  end.

(** Whether the collaborator answered call [c] by raising. *)
Definition call_failed (rs : Responses) (c : call) : bool :=
  match c with
  | CallAcquire =>
      match acquire_response rs with Some _ => true | None => false end
  | CallExecute l cmd =>
      match execute_response rs l cmd with inr _ => true | inl _ => false end
  | CallRelease => false
  end.

(** The calls of a trace that come after its first failed call. *)
Fixpoint after_first_failure (rs : Responses) (t : list call) : list call :=
  match t with
  | [] => []
  | c :: t' => if call_failed rs c then t' else after_first_failure rs t'
  end.

(** The first error a collaborator raises in a run, if any. *)
Definition collaborator_error (rs : Responses) : option error :=
  match acquire_response rs with
  | Some e => Some e
  | None =>
      match execute_response rs "Build" build_command with
      | inl _ => None
      | inr e => Some e
      end
  end.

Definition is_execute (c : call) : bool :=
  match c with CallExecute _ _ => true | _ => false end.

Definition is_acquire (c : call) : bool :=
  match c with CallAcquire => true | _ => false end.

(** Two sets of responses raise the same errors at the same calls; the
    results returned without raising may differ. *)
Definition same_raising (rs1 rs2 : Responses) : Prop :=
  acquire_response rs1 = acquire_response rs2 /\
  forall l cmd,
    match execute_response rs1 l cmd, execute_response rs2 l cmd with
    | inl _, inl _ => True
    | inr e1, inr e2 => e1 = e2
    | _, _ => False
    end.

(** ** Unfolding the run *)

Lemma RunSteps_unfold (rs : Responses) (w : World) :
  RunSteps rs w =
  match acquire_response rs with
  | Some e => (inr e, w ++ [CallAcquire])
  | None =>
      match execute_response rs "Build" build_command with
      | inl _ => (inl tt, w ++ [CallAcquire; CallExecute "Build" build_command;
                                CallRelease])
      | inr e => (inr e, w ++ [CallAcquire; CallExecute "Build" build_command;
                               CallRelease])
      end
  end.
Proof.
  unfold RunSteps, with_stmt, container_build_context, step_in_container,
    build_command; cbn.
  destruct (acquire_response rs) as [e|]; cbn; [reflexivity|].
  destruct (execute_response rs "Build" ["cargo"; "build"]); cbn;
    rewrite <- !app_assoc; reflexivity.
Qed.

Lemma run_calls_unfold (rs : Responses) :
  run_calls rs =
  match acquire_response rs with
  | Some _ => [CallAcquire]
  | None => [CallAcquire; CallExecute "Build" build_command; CallRelease]
  end.
Proof.
  unfold run_calls; rewrite RunSteps_unfold.
  destruct (acquire_response rs); [reflexivity|].
  destruct (execute_response rs "Build" build_command); reflexivity.
Qed.

Lemma run_outcome_unfold (rs : Responses) :
  run_outcome rs =
  match collaborator_error rs with None => inl tt | Some e => inr e end.
Proof.
  unfold run_outcome, collaborator_error; rewrite RunSteps_unfold.
  destruct (acquire_response rs); [reflexivity|].
  destruct (execute_response rs "Build" build_command); reflexivity.
Qed.

(** Sample responses: provisioning succeeds or fails, the step returns
    [r] or raises [e]. *)
Definition sample_result (code : Z) : ExecutionResult :=
  {| exit_code := code; stdout := ""; stderr := "" |}.

Definition responses (acq : option error) (step : ExecutionResult + error)
  : Responses :=
  {| acquire_response := acq; execute_response := fun _ _ => step |}.

(** ** Claims *)

(** C1: in scenario "basic" (the context is provisioned), the run calls
    [acquire_build_context()] once, then [execute()] once with label
    "Build" and command [cargo build], then releases the context once, in
    that order, whatever the step's outcome. *)
Theorem basic_call_sequence (rs : Responses)
  (Hacq : acquire_response rs = None) :
  run_calls rs = [CallAcquire; CallExecute "Build" ["cargo"; "build"];
                  CallRelease].
Proof. rewrite run_calls_unfold, Hacq; reflexivity. Qed.

Lemma basic_call_sequence_witness :
  acquire_response (responses None (inr (StepExecutionError 101))) = None /\
  run_calls (responses None (inr (StepExecutionError 101))) =
  [CallAcquire; CallExecute "Build" ["cargo"; "build"]; CallRelease].
Proof.
  split; [reflexivity|].
  apply basic_call_sequence; reflexivity.
Defined.

(** C2: once the context is acquired it is released on every exit path;
    when the step raises, the release is logged and then the step's error
    propagates. *)
Theorem release_on_every_path (rs : Responses)
  (Hacq : acquire_response rs = None) :
  (exists pre, run_calls rs = pre ++ [CallRelease] /\ ~ In CallRelease pre) /\
  (forall e, execute_response rs "Build" build_command = inr e ->
             run_outcome rs = inr e).
Proof.
  split.
  - rewrite run_calls_unfold, Hacq.
    exists [CallAcquire; CallExecute "Build" build_command]; split;
      [reflexivity|].
    cbn; intros [H|[H|H]]; [discriminate|discriminate|exact H].
  - intros e He. rewrite run_outcome_unfold; unfold collaborator_error.
    rewrite Hacq, He; reflexivity.
Qed.

Lemma release_on_every_path_witness :
  acquire_response (responses None (inr (StepExecutionError 1))) = None /\
  run_outcome (responses None (inr (StepExecutionError 1))) =
    inr (StepExecutionError 1).
Proof.
  split; [reflexivity|].
  apply (proj2 (release_on_every_path
                  (responses None (inr (StepExecutionError 1))) eq_refl)).
  reflexivity.
Defined.

(** C3: when acquiring the context raises, [execute()] is never called:
    the only call is the failed acquisition and its error is the outcome. *)
Theorem acquisition_failure_no_step (rs : Responses) (e : error)
  (Hacq : acquire_response rs = Some e) :
  (forall l cmd, ~ In (CallExecute l cmd) (run_calls rs)) /\
  run_calls rs = [CallAcquire] /\
  run_outcome rs = inr e.
Proof.
  rewrite run_calls_unfold, run_outcome_unfold; unfold collaborator_error.
  rewrite Hacq; repeat split; [|reflexivity..].
  intros l cmd [H|H]; [discriminate|exact H].
Qed.

Lemma acquisition_failure_no_step_witness :
  acquire_response (responses (Some ContextAcquisitionError)
                      (inl (sample_result 0))) = Some ContextAcquisitionError /\
  run_calls (responses (Some ContextAcquisitionError)
               (inl (sample_result 0))) = [CallAcquire].
Proof.
  split; [reflexivity|].
  apply (acquisition_failure_no_step
           (responses (Some ContextAcquisitionError) (inl (sample_result 0)))
           ContextAcquisitionError eq_refl).
Defined.

(** C4: the run is deterministic and carries no hidden state: from any two
    harness states, the same responses give the same outcome and append
    the same calls. *)
Theorem deterministic_no_hidden_state (rs : Responses) (w1 w2 : World) :
  fst (RunSteps rs w1) = fst (RunSteps rs w2) /\
  exists t, snd (RunSteps rs w1) = w1 ++ t /\ snd (RunSteps rs w2) = w2 ++ t.
Proof.
  rewrite !RunSteps_unfold.
  destruct (acquire_response rs).
  - split; [reflexivity|]. eexists; split; reflexivity.
  - destruct (execute_response rs "Build" build_command);
      (split; [reflexivity|]; eexists; split; reflexivity).
Qed.


(** C5: every collaborator error reaches the harness unchanged (the
    outcome is exactly the first error raised, success only when none
    was), and nothing is retried: one acquisition, at most one execution. *)
Theorem errors_propagate_no_retry (rs : Responses) :
  run_outcome rs =
    (match collaborator_error rs with None => inl tt | Some e => inr e end) /\
  length (filter is_acquire (run_calls rs)) = 1 /\
  length (filter is_execute (run_calls rs)) <= 1.
Proof.
  split; [apply run_outcome_unfold|].
  rewrite run_calls_unfold.
  destruct (acquire_response rs); cbn; split; auto.
Qed.

(** C6: a run ends either [Completed], exactly when the context was
    provisioned and the step returned, or [Failed], exactly when one of
    them raised; after the first failed call no step is executed. *)
Theorem terminal_states (rs : Responses) :
  (terminal_of (run_outcome rs) = Completed <->
     acquire_response rs = None /\
     exists r, execute_response rs "Build" build_command = inl r) /\
  (terminal_of (run_outcome rs) = Failed <->
     (exists e, acquire_response rs = Some e) \/
     (acquire_response rs = None /\
      exists e, execute_response rs "Build" build_command = inr e)) /\
  (forall l cmd,
     ~ In (CallExecute l cmd) (after_first_failure rs (run_calls rs))).
Proof.
  rewrite run_outcome_unfold, run_calls_unfold; unfold collaborator_error.
  destruct (acquire_response rs) as [e|] eqn:Ha.
  - cbn; rewrite Ha.
    split; [split; [discriminate | intros [Hn _]; discriminate] |].
    split; [split; [intros _; left; eauto | reflexivity] |].
    intros _ _ [].
  - unfold build_command in *.
    destruct (execute_response rs "Build" ["cargo"; "build"]) as [r|e] eqn:He;
      cbn; rewrite Ha, He; cbn.
    + split; [split; [intros _; split; eauto | reflexivity] |].
      split; [split; [discriminate | intros [[e Hs]|[_ [e Hs]]]; discriminate] |].
      intros _ _ [].
    + split; [split; [discriminate | intros [_ [r Hs]]; discriminate] |].
      split; [split; [intros _; right; eauto | reflexivity] |].
      intros l cmd [Hc|[]]; discriminate.
Qed.

(** C7: [GenTests] registers exactly one test case, named "basic", and
    supplies it no data. *)
Theorem gentests_single_basic :
  GenTests = [{| test_name := "basic"; test_data := [] |}] /\
  length GenTests = 1.
Proof. split; reflexivity. Qed.

(** C8: the value returned by the step is discarded: two sets of
    responses that raise the same errors give the same run, whatever
    [ExecutionResult]s they return. *)
Theorem execution_result_discarded (rs1 rs2 : Responses) (w : World)
  (Hsame : same_raising rs1 rs2) :
  RunSteps rs1 w = RunSteps rs2 w.
Proof.
  destruct Hsame as [Ha He].
  rewrite !RunSteps_unfold, Ha.
  destruct (acquire_response rs2); [reflexivity|].
  specialize (He "Build" build_command).
  destruct (execute_response rs1 "Build" build_command),
    (execute_response rs2 "Build" build_command);
    try contradiction; subst; reflexivity.
Qed.

Lemma execution_result_discarded_witness :
  same_raising (responses None (inl (sample_result 0)))
               (responses None (inl (sample_result 1))) /\
  RunSteps (responses None (inl (sample_result 0))) [] =
  RunSteps (responses None (inl (sample_result 1))) [].
Proof.
  assert (H : same_raising (responses None (inl (sample_result 0)))
                           (responses None (inl (sample_result 1))))
    by (split; [reflexivity|]; intros; exact I).
  split; [exact H|].
  apply execution_result_discarded; exact H.
Defined.

(** C9: a run makes no call outside the context scope and none besides
    the single step: from any harness state it appends either the failed
    acquisition alone, or acquisition, the step and the release. *)
Theorem calls_within_scope (rs : Responses) (w : World) :
  exists t, snd (RunSteps rs w) = w ++ t /\
    (t = [CallAcquire] \/
     t = [CallAcquire; CallExecute "Build" ["cargo"; "build"]; CallRelease]).
Proof.
  rewrite RunSteps_unfold.
  destruct (acquire_response rs).
  - eexists; split; [reflexivity | left; reflexivity].
  - destruct (execute_response rs "Build" build_command);
      (eexists; split; [reflexivity | right; reflexivity]).
Qed.

(** ** Further properties of [RunSteps] *)

(** The run depends on the collaborators only through the acquisition and
    the answer to its one command ("Build", [cargo build]): answers to any
    other label or command never change it. *)
Theorem run_depends_only_on_build_step (rs1 rs2 : Responses) (w : World)
  (Hacq : acquire_response rs1 = acquire_response rs2)
  (Hstep : execute_response rs1 "Build" ["cargo"; "build"] =
           execute_response rs2 "Build" ["cargo"; "build"]) :
  RunSteps rs1 w = RunSteps rs2 w.
Proof.
  rewrite !RunSteps_unfold, Hacq; unfold build_command; rewrite Hstep.
  reflexivity.
Qed.

Lemma run_depends_only_on_build_step_witness :
  let rs1 := responses None (inl (sample_result 0)) in
  let rs2 := {| acquire_response := None;
                execute_response := fun l cmd =>
                  if String.eqb l "Build" then inl (sample_result 0)
                  else inr ContextError |} in
  acquire_response rs1 = acquire_response rs2 /\
  execute_response rs1 "Build" ["cargo"; "build"] =
    execute_response rs2 "Build" ["cargo"; "build"] /\
  execute_response rs1 "Test" ["cargo"; "test"] <>
    execute_response rs2 "Test" ["cargo"; "test"] /\
  RunSteps rs1 [] = RunSteps rs2 [].
Proof.
  cbv zeta.
  split; [reflexivity|]. split; [reflexivity|]. split; [discriminate|].
  apply run_depends_only_on_build_step; reflexivity.
Defined.
